(** * The Sublime Text plugins of cpick: offset resolution and launch

    The repository ships two Sublime Text plugins,
    [CPickSublimeText/plugin.py] and [QuickPickSublimeText/plugin.py].
    Each defines one [TextCommand] whose [run] method walks the current
    selection, turns every region's anchor into a character offset
    (corrected by the row number when the buffer uses Windows line
    endings) and hands ["<file>@<offset>"] to [subprocess.Popen].

    The development below embeds both [run] methods in a small
    exception-and-trace monad, together with the fragment of Python
    ([str], [str.format], sequence indexing, [for]) and of the host
    interfaces ([sublime.View], [subprocess.Popen]) that they use. *)

From Stdlib Require Import ZArith List String Ascii Bool Lia.
From Stdlib Require Import DecimalString DecimalZ.
Import ListNotations.

Local Open Scope string_scope.
Local Open Scope Z_scope.

(** ** The Python fragment *)

Module Py.

(** Exceptions that can cross [run]. *)
Inductive exc : Type :=
| IndexError
| ValueError
| OSError (errno : Z).

(** Outcome of evaluating an expression or statement. *)
Inductive result (A : Type) : Type :=
| Ok (x : A)
| Exc (e : exc).
Arguments Ok {A} x.
Arguments Exc {A} e.

(** The values that reach [str.format] in the plugins:
    [view.file_name()] is a [str] or [None], [b] is an [int]. *)
Inductive value : Type :=
| VNone
| VStr (s : string)
| VInt (n : Z).

(** [str(n)] for an [int]: decimal digits, a leading minus sign for
    negative numbers, no padding. *)
Definition str_int (n : Z) : string :=
  NilZero.string_of_int (Z.to_int n).

(** [int(s)] restricted to plain decimal literals. *)
Definition int_of_str (s : string) : option Z :=
  option_map Z.of_int (NilZero.int_of_string s).

(** [format(v, "")], which is what an empty replacement field applies. *)
Definition str (v : value) : string :=
  match v with
  | VNone => "None"
  | VStr s => s
  | VInt n => str_int n
  end.

Definition lbrace : ascii := "{"%char.
Definition rbrace : ascii := "}"%char.

(** [tmpl.format( *args )] for templates made of literal text, the
    escapes [{{] and [}}], and automatically numbered empty fields
    [{}].  A lone brace is a [ValueError], a field without a matching
    argument an [IndexError].  Fields that carry a name, an index, a
    conversion or a format specification are outside this fragment
    (the plugins' template has none) and are rejected here. *)
Fixpoint format (tmpl : string) (args : list value) : result string :=
  match tmpl with
  | EmptyString => Ok EmptyString
  | String c rest =>
      if Ascii.eqb c lbrace then
        match rest with
        | EmptyString => Exc ValueError
        | String d rest' =>
            if Ascii.eqb d lbrace then
              match format rest' args with
              | Ok s => Ok (String lbrace s)
              | Exc e => Exc e
              end
            else if Ascii.eqb d rbrace then
              match args with
              | [] => Exc IndexError
              | v :: args' =>
                  match format rest' args' with
                  | Ok s => Ok (str v ++ s)
                  | Exc e => Exc e
                  end
              end
            else Exc ValueError
        end
      else if Ascii.eqb c rbrace then
        match rest with
        | String d rest' =>
            if Ascii.eqb d rbrace then
              match format rest' args with
              | Ok s => Ok (String rbrace s)
              | Exc e => Exc e
              end
            else Exc ValueError
        | EmptyString => Exc ValueError
        end
      else
        match format rest args with
        | Ok s => Ok (String c s)
        | Exc e => Exc e
        end
  end.

End Py.

(** ** Classes of characters *)

Module Chars.

Fixpoint string_forall (p : ascii -> bool) (s : string) : bool :=
  match s with
  | EmptyString => true
  | String c rest => p c && string_forall p rest
  end.

Definition between (lo hi : nat) (c : ascii) : bool :=
  ((lo <=? nat_of_ascii c)%nat && (nat_of_ascii c <=? hi)%nat).

Definition is_digit (c : ascii) : bool := between 48 57 c.

(** Characters of a decimal literal. *)
Definition is_offset_char (c : ascii) : bool :=
  Ascii.eqb c "-" || is_digit c.

(** [str.isspace] on ASCII. *)
Definition is_space (c : ascii) : bool :=
  Ascii.eqb c " " || between 9 13 c || between 28 31 c.

(** Characters that a POSIX shell reads as part of a plain word. *)
Definition is_word_char (c : ascii) : bool :=
  is_digit c || between 65 90 c || between 97 122 c
  || Ascii.eqb c "_" || Ascii.eqb c "-" || Ascii.eqb c "." || Ascii.eqb c "/".

End Chars.

(** ** [subprocess] *)

Module subprocess.

(** The arguments of one [subprocess.Popen(args, shell=...)] call. *)
Record call : Type := mk_call { args : list string; shell : bool }.

(** What became of the command once the shell had been started.  With
    [shell=True] the parent starts the shell, and it is the shell that
    looks the tool up: a tool that is missing or may not be executed
    ends the shell with a status ([127], [126]) that [Popen] never
    raises and that the plugins never read. *)
Inductive child : Type :=
| ToolRuns
| ShellStatus (code : Z).

(** What the parent sees of one call: [Popen] returns a process
    object, or it raises because no process could be created. *)
Inductive outcome : Type :=
| Returns (c : child)
| Raises (e : Py.exc).

(** The environment: the outcome of the [k]-th call (from 0) of an
    execution. *)
Definition schedule : Type := nat -> outcome.

Definition raises (o : outcome) : bool :=
  match o with
  | Returns _ => false
  | Raises _ => true
  end.

(** [Popen._execute_child] on POSIX: with [shell=True] the argument
    list is appended to [/bin/sh -c], so that its head is the command
    string and the other items are the shell's own positional
    parameters. *)
Definition posix_execve_argv (c : call) : list string :=
  if shell c then "/bin/sh" :: "-c" :: args c else args c.

(** [sh -c command_string [command_name [argument...]]]: the shell
    executes [command_string]; the operands after it set [$0], [$1],
    ... and are no arguments of the command.  For a command string
    that is one plain word, the command is started under that name
    with no argument.  Other command strings are not described. *)
Definition sh_command_argv (argv : list string) : option (list string) :=
  match argv with
  | _ :: flag :: command_string :: _ =>
      if (flag =? "-c")%string
         && negb (command_string =? EmptyString)%string
         && Chars.string_forall Chars.is_word_char command_string
      then Some [command_string]
      else None
  | _ => None
  end.

End subprocess.

(** ** Executions: a schedule to read, a trace to extend, exceptions *)

Module Exec.
Import Py subprocess.

(** A computation reads the environment, is given the calls made so
    far and returns its outcome with the calls made up to then. *)
Definition M (A : Type) : Type :=
  schedule -> list call -> result A * list call.

Definition ret {A} (x : A) : M A := fun _ tr => (Ok x, tr).

Definition bind {A B} (m : M A) (k : A -> M B) : M B :=
  fun os tr =>
    match m os tr with
    | (Ok x, tr') => k x os tr'
    | (Exc e, tr') => (Exc e, tr')
    end.

Definition raise {A} (e : exc) : M A := fun _ tr => (Exc e, tr).

Definition lift {A} (r : result A) : M A := fun _ tr => (r, tr).

(** [for x in xs: body(x)] *)
Fixpoint for_in {A} (xs : list A) (body : A -> M unit) : M unit :=
  match xs with
  | [] => ret tt
  | x :: xs' => bind (body x) (fun _ => for_in xs' body)
  end.

(** [subprocess.Popen(args, shell=...)]: the call is recorded as an
    attempt whatever its outcome; the process object is not kept. *)
Definition Popen (c : call) : M unit :=
  fun os tr =>
    (match os (List.length tr) with
     | Returns _ => Ok tt
     | Raises e => Exc e
     end, (tr ++ [c])%list).

(** Running a command in a fresh execution. *)
Definition exec {A} (m : M A) (os : schedule) : result A * list call :=
  m os [].

End Exec.

Declare Scope py_scope.
Delimit Scope py_scope with py.
Notation "x <- m ;; k" := (Exec.bind m (fun x => k))
  (at level 61, m at next level, right associativity) : py_scope.

(** ** [sublime] *)

Module sublime.
Import Py Exec.

(** [sublime.Region]: the anchor [a] and the caret end [b]. *)
Record Region : Type := mk_Region { a : Z; b : Z }.

(** The view as the plugins observe it: the selection, the
    translation of a point into (row, column), the line ending mode
    (["Windows"], ["Unix"] or ["CR"]) and the file name, [None] for a
    buffer that was never saved. *)
Record View : Type := mk_View {
  sel : list Region;
  rowcol : Z -> Z * Z;
  line_endings : string;
  file_name : option string
}.

Definition len (s : list Region) : Z := Z.of_nat (List.length s).

(** [Selection.__getitem__]: the region at [index], [IndexError]
    when there is none.  The plugins index with [len(sel) - 1] only,
    which is a valid index on a selection that has a region and [-1]
    on one that has none. *)
Definition Selection_getitem (s : list Region) (index : Z) : M Region :=
  if (0 <=? index) && (index <? len s) then
    match nth_error s (Z.to_nat index) with
    | Some r => ret r
    | None => raise IndexError
    end
  else raise IndexError.

Definition py_file_name (v : View) : value :=
  match file_name v with
  | Some s => VStr s
  | None => VNone
  end.

(** The same buffer under another selection. *)
Definition with_sel (v : View) (s : list Region) : View :=
  {| sel := s;
     rowcol := rowcol v;
     line_endings := line_endings v;
     file_name := file_name v |}.

End sublime.

(** ** The two commands *)

Module CPickSublimeText.
Import Py subprocess Exec sublime.
Local Open Scope py_scope.

(** [OpenCpickOnSelection.run] *)
Definition run (view : View) : M unit :=
  let sel := sel view in
  last <- Selection_getitem sel (len sel - 1) ;;
  for_in sel (fun r =>
    let b := a r in
    let '(row, col) := rowcol view b in
    let b := if (line_endings view =? "Windows")%string then b + row else b in
    target <- lift (format "{}@{}" [py_file_name view; VInt b]) ;;
    p <- Popen {| args := ["cpick"; target]; shell := true |} ;;
    ret tt).

End CPickSublimeText.

Module QuickPickSublimeText.
Import Py subprocess Exec sublime.
Local Open Scope py_scope.

(** [OpenQuickpickOnSelection.run] *)
Definition run (view : View) : M unit :=
  let sel := sel view in
  last <- Selection_getitem sel (len sel - 1) ;;
  for_in sel (fun r =>
    let b := a r in
    let '(row, col) := rowcol view b in
    let b := if (line_endings view =? "Windows")%string then b + row else b in
    target <- lift (format "{}@{}" [py_file_name view; VInt b]) ;;
    p <- Popen {| args := ["quickpick"; target]; shell := true |} ;;
    ret tt).

End QuickPickSublimeText.

(** ** Reading a launch target back

    The offset that a launch target embeds is the text after its last
    ['@'], read as a decimal literal; the text before it is the path. *)

Module Target.
Import Py Chars.

Definition at_sign : ascii := "@"%char.

(** [s.rpartition("@")] without the separator, [None] when [s] has no
    ['@']. *)
Fixpoint rsplit_at (s : string) : option (string * string) :=
  match s with
  | EmptyString => None
  | String c rest =>
      match rsplit_at rest with
      | Some (before, after) => Some (String c before, after)
      | None => if Ascii.eqb c at_sign then Some (EmptyString, rest) else None
      end
  end.

(** Path and offset of a launch target. *)
Definition parse (target : string) : option (string * Z) :=
  match rsplit_at target with
  | Some (path, digits) => option_map (pair path) (int_of_str digits)
  | None => None
  end.

Definition embedded_offset (target : string) : option Z :=
  option_map snd (parse target).

End Target.

(** ** What one iteration is expected to do *)

Module Plugin.
Import Py subprocess Exec sublime.

Inductive extension : Type := CPick | QuickPick.

Definition tool (e : extension) : string :=
  match e with
  | CPick => "cpick"
  | QuickPick => "quickpick"
  end.

Definition run (e : extension) : View -> M unit :=
  match e with
  | CPick => CPickSublimeText.run
  | QuickPick => QuickPickSublimeText.run
  end.

(** The offset sent for a region: its anchor, plus the anchor's row
    in a buffer with Windows line endings. *)
Definition offset (view : View) (r : Region) : Z :=
  if (line_endings view =? "Windows")%string
  then a r + fst (rowcol view (a r))
  else a r.

Definition launch_target (view : View) (r : Region) : string :=
  (str (py_file_name view) ++ String Target.at_sign (str_int (offset view r)))%string.

Definition spawn (e : extension) (view : View) (r : Region) : call :=
  {| args := [tool e; launch_target view r]; shell := true |}.

(** How many calls a loop over [n] regions makes when its first call
    is the [i]-th of the execution, and how it ends. *)
Fixpoint attempts (os : schedule) (i n : nat) : nat :=
  match n with
  | O => O
  | S n' => if raises (os i) then 1%nat else S (attempts os (S i) n')
  end.

Fixpoint loop_result (os : schedule) (i n : nat) : result unit :=
  match n with
  | O => Ok tt
  | S n' =>
      match os i with
      | Raises e => Exc e
      | Returns _ => loop_result os (S i) n'
      end
  end.

(** Renaming the tool in a recorded call. *)
Definition retool (name : string) (c : call) : call :=
  match args c with
  | [] => c
  | _ :: rest => {| args := name :: rest; shell := shell c |}
  end.

Definition targets (tr : list call) : list (list string) :=
  map (fun c => tl (args c)) tr.

End Plugin.

(** ** Concrete buffers and environments *)

Module Scenarios.
Import Py subprocess sublime.

(** [rowcol] of a buffer given by the lengths of its lines.  The host
    keeps one character per line terminator whatever the line ending
    mode of the file. *)
Fixpoint rowcol_of_lines (lens : list Z) (row p : Z) : Z * Z :=
  match lens with
  | [] => (row, p)
  | n :: rest =>
      if p <=? n then (row, p)
      else rowcol_of_lines rest (row + 1) (p - (n + 1))
  end.

(** [/tmp/a.txt], Unix line endings, one caret at point 42, which is
    row 3, column 5. *)
Definition unix_caret : View :=
  {| sel := [mk_Region 42 42];
     rowcol := rowcol_of_lines [10; 12; 12; 20] 0;
     line_endings := "Unix";
     file_name := Some "/tmp/a.txt" |}.

(** [C:\f.txt], Windows line endings, one caret at point 100, which is
    row 4, column 2. *)
Definition windows_caret : View :=
  {| sel := [mk_Region 100 100];
     rowcol := rowcol_of_lines [23; 24; 24; 23; 10] 0;
     line_endings := "Windows";
     file_name := Some "C:\f.txt" |}.

(** Windows line endings, two regions anchored at 10 (row 0) and at
    30 (row 2); the second one is a selection made backwards. *)
Definition two_regions : View :=
  {| sel := [mk_Region 10 10; mk_Region 30 27];
     rowcol := rowcol_of_lines [12; 12; 20] 0;
     line_endings := "Windows";
     file_name := Some "C:\f.txt" |}.

(** The same buffer after the caret ends of both regions moved. *)
Definition two_regions_moved : list Region :=
  [mk_Region 10 4; mk_Region 30 41].

(** A view whose selection was cleared. *)
Definition no_region : View :=
  {| sel := [];
     rowcol := rowcol_of_lines [12; 12; 20] 0;
     line_endings := "Unix";
     file_name := Some "/tmp/a.txt" |}.

(** Every call starts the shell and the tool. *)
Definition all_run : schedule := fun _ => Returns ToolRuns.

(** Every call starts the shell, which does not find the tool. *)
Definition tool_missing : schedule := fun _ => Returns (ShellStatus 127).

(** The [k]-th call cannot create a process ([EAGAIN]); the others
    start the shell and the tool. *)
Definition fork_fails_at (k : nat) : schedule :=
  fun i => if Nat.eqb i k then Raises (OSError 11) else Returns ToolRuns.

End Scenarios.

(** ** Further environments and buffers *)

Module Host.
Import Py subprocess sublime.

(** A buffer that was never saved: [file_name()] is [None].  Unix line
    endings, carets at the points 7 (row 0) and 15 (row 1). *)
Definition untitled : View :=
  {| sel := [mk_Region 7 7; mk_Region 15 15];
     rowcol := Scenarios.rowcol_of_lines [12; 12; 20] 0;
     line_endings := "Unix";
     file_name := None |}.

(** The same view with another translation of points into rows and
    columns. *)
Definition with_rowcol (v : View) (f : Z -> Z * Z) : View :=
  {| sel := sel v;
     rowcol := f;
     line_endings := line_endings v;
     file_name := file_name v |}.

(** The second call raises [ENOMEM]; the others start the shell, which
    does not find the tool. *)
Definition second_call_fails : schedule :=
  fun i => if Nat.eqb i 1 then Raises (OSError 12)
           else Returns (ShellStatus 127).

End Host.

(** * Properties *)

(** ** Decimal literals and launch targets *)

Section DecimalText.
Import Py Chars Target.

Lemma append_empty_r (s : string) : (s ++ EmptyString)%string = s.
Proof.
  induction s as [|c s IH]; simpl; [reflexivity | now rewrite IH].
Qed.

Lemma length_append (s t : string) :
  String.length (s ++ t) = (String.length s + String.length t)%nat.
Proof.
  induction s as [|c s IH]; simpl; [reflexivity | now rewrite IH].
Qed.

Lemma string_forall_impl (p q : ascii -> bool) (s : string) :
  (forall c, p c = true -> q c = true) ->
  string_forall p s = true -> string_forall q s = true.
Proof.
  intros Hpq. induction s as [|c s IH]; simpl; [reflexivity|].
  rewrite !andb_true_iff. intros [Hc Hs]. split; auto.
Qed.

Lemma uint_digits (d : Decimal.uint) :
  string_forall is_digit (NilEmpty.string_of_uint d) = true.
Proof.
  induction d; simpl; auto.
Qed.

Lemma nilzero_uint_digits (d : Decimal.uint) :
  string_forall is_digit (NilZero.string_of_uint d) = true.
Proof.
  destruct d; try reflexivity; apply (uint_digits (_ d)).
Qed.

Lemma digit_is_offset_char (c : ascii) :
  is_digit c = true -> is_offset_char c = true.
Proof.
  unfold is_offset_char. intros ->. apply orb_true_r.
Qed.

Lemma str_int_chars (n : Z) :
  string_forall is_offset_char (str_int n) = true.
Proof.
  unfold str_int.
  destruct (Z.to_int n) as [d|d]; simpl.
  - eapply string_forall_impl; [apply digit_is_offset_char|].
    apply nilzero_uint_digits.
  - eapply string_forall_impl; [apply digit_is_offset_char|].
    apply nilzero_uint_digits.
Qed.

Lemma offset_char_not_at (c : ascii) :
  is_offset_char c = true -> Ascii.eqb c at_sign = false.
Proof.
  destruct c as [[|] [|] [|] [|] [|] [|] [|] [|]]; vm_compute; congruence.
Qed.

Lemma offset_char_not_space (c : ascii) :
  is_offset_char c = true -> is_space c = false.
Proof.
  destruct c as [[|] [|] [|] [|] [|] [|] [|] [|]]; vm_compute; congruence.
Qed.

Lemma str_int_nonempty (n : Z) : str_int n <> EmptyString.
Proof.
  unfold str_int.
  destruct (Z.to_int n) as [d|d]; simpl; [|discriminate].
  destruct d; simpl; discriminate.
Qed.

(** [int(str(n)) == n] *)
Lemma int_of_str_str_int (n : Z) : int_of_str (str_int n) = Some n.
Proof.
  unfold int_of_str, str_int.
  rewrite NilZero.isi.
  - simpl. now rewrite DecimalZ.of_to.
  - destruct n; simpl; try discriminate.
    intros [= H]. now apply (DecimalPos.Unsigned.to_uint_nonnil p).
  - destruct n; simpl; try discriminate.
    intros [= H]. now apply (DecimalPos.Unsigned.to_uint_nonnil p).
Qed.

Lemma rsplit_at_none (s : string) :
  string_forall is_offset_char s = true -> rsplit_at s = None.
Proof.
  induction s as [|c s IH]; simpl; [reflexivity|].
  rewrite andb_true_iff. intros [Hc Hs].
  now rewrite (IH Hs), (offset_char_not_at _ Hc).
Qed.

Lemma rsplit_at_append (path digits : string) :
  string_forall is_offset_char digits = true ->
  rsplit_at (path ++ String at_sign digits) = Some (path, digits).
Proof.
  intros Hd. induction path as [|c path IH]; simpl.
  - now rewrite (rsplit_at_none _ Hd).
  - now rewrite IH.
Qed.

(** Splitting a target at its last ['@'] gives back the path, however
    many ['@'] the path has, and the offset. *)
Lemma parse_target (path : string) (n : Z) :
  parse (path ++ String at_sign (str_int n)) = Some (path, n).
Proof.
  unfold parse.
  rewrite rsplit_at_append by apply str_int_chars.
  now rewrite int_of_str_str_int.
Qed.

End DecimalText.

(** ** The loop over the selection *)

Section Loop.
Import Py subprocess Exec sublime Plugin.

Lemma format_target (v : value) (n : Z) :
  format "{}@{}" [v; VInt n]
  = Ok (str v ++ String Target.at_sign (str_int n))%string.
Proof.
  cbn. now rewrite append_empty_r.
Qed.

Lemma attempts_le (os : schedule) (n i : nat) : (attempts os i n <= n)%nat.
Proof.
  revert i. induction n as [|n IH]; intros i; simpl; [lia|].
  destruct (raises (os i)); [lia|]. specialize (IH (S i)). lia.
Qed.

(** A loop whose body is one [Popen] call per element: the calls are
    made in order up to the first one that raises, and the loop ends
    with that exception, or normally when there is none. *)
Lemma for_in_popen {A} (body : A -> M unit) (f : A -> call) :
  (forall x os tr, body x os tr = Popen (f x) os tr) ->
  forall xs os tr,
    for_in xs body os tr
    = (loop_result os (List.length tr) (List.length xs),
       (tr ++ firstn (attempts os (List.length tr) (List.length xs)) (map f xs))%list).
Proof.
  intros Hbody xs os. induction xs as [|x xs IH]; intros tr; simpl.
  - unfold ret. now rewrite app_nil_r.
  - unfold bind. rewrite Hbody. unfold Popen.
    destruct (os (List.length tr)) as [c|ex]; simpl.
    + rewrite IH. rewrite length_app, Nat.add_1_r. simpl.
      now rewrite <- app_assoc.
    + reflexivity.
Qed.

Lemma body_is_spawn (e : extension) (view : View) (r : Region) os tr :
  (let b := a r in
   let '(row, col) := rowcol view b in
   let b := if (line_endings view =? "Windows")%string then b + row else b in
   bind (lift (format "{}@{}" [py_file_name view; VInt b]))
     (fun target =>
        bind (Popen {| args := [tool e; target]; shell := true |})
          (fun p => ret tt))) os tr
  = Popen (spawn e view r) os tr.
Proof.
  unfold spawn, launch_target, offset.
  destruct (rowcol view (a r)) as [row col]; cbv zeta; simpl fst.
  rewrite format_target. unfold bind, lift, Popen, ret.
  destruct (os (List.length tr)); reflexivity.
Qed.

Lemma getitem_last (s : list Region) os tr :
  s <> [] ->
  exists r, Selection_getitem s (len s - 1) os tr = (Ok r, tr).
Proof.
  intros Hs. unfold Selection_getitem, len.
  destruct s as [|r0 s]; [congruence|].
  assert (Hlen : (Z.to_nat (Z.of_nat (List.length (r0 :: s)) - 1) < List.length (r0 :: s))%nat)
    by (simpl List.length; lia).
  destruct (nth_error (r0 :: s) _) as [r|] eqn:Hnth.
  - exists r.
    replace ((0 <=? _) && _) with true; [reflexivity|].
    symmetry. apply andb_true_iff. split; [apply Z.leb_le | apply Z.ltb_lt];
      simpl List.length; lia.
  - apply nth_error_None in Hnth. lia.
Qed.

Lemma getitem_empty (index : Z) os tr :
  Selection_getitem [] index os tr = (Exc IndexError, tr).
Proof.
  unfold Selection_getitem, len; simpl.
  destruct (0 <=? index) eqn:H0; simpl; [|reflexivity].
  destruct (index <? 0) eqn:H1; [|reflexivity].
  apply Z.leb_le in H0. apply Z.ltb_lt in H1. lia.
Qed.

(** The whole command on a selection that has a region. *)
Lemma run_calls (e : extension) (view : View) os tr :
  sel view <> [] ->
  run e view os tr
  = (loop_result os (List.length tr) (List.length (sel view)),
     (tr ++ firstn (attempts os (List.length tr) (List.length (sel view)))
              (map (spawn e view) (sel view)))%list).
Proof.
  intros Hs.
  destruct (getitem_last (sel view) os tr Hs) as [r Hr].
  destruct e; unfold run, CPickSublimeText.run, QuickPickSublimeText.run;
    cbv zeta; unfold bind at 1; rewrite Hr.
  - apply (for_in_popen _ (spawn CPick view)); intros x os' tr'.
    exact (body_is_spawn CPick view x os' tr').
  - apply (for_in_popen _ (spawn QuickPick view)); intros x os' tr'.
    exact (body_is_spawn QuickPick view x os' tr').
Qed.

Lemma run_empty (e : extension) (view : View) os tr :
  sel view = [] -> run e view os tr = (Exc IndexError, tr).
Proof.
  intros Hs.
  destruct e; unfold run, CPickSublimeText.run, QuickPickSublimeText.run;
    cbv zeta; unfold bind at 1; rewrite Hs; now rewrite getitem_empty.
Qed.

(** *** Counting the calls *)

Lemma attempts_all (os : schedule) (n i : nat) :
  (forall k, (S k < n)%nat -> raises (os (i + k)%nat) = false) ->
  attempts os i n = n.
Proof.
  revert i. induction n as [|n IH]; intros i H; simpl; [reflexivity|].
  destruct n as [|n].
  - simpl. now destruct (raises (os i)).
  - rewrite <- (Nat.add_0_r i) at 1. rewrite (H 0%nat) by lia.
    f_equal. apply IH. intros k Hk.
    replace (S i + k)%nat with (i + S k)%nat by lia. apply H. lia.
Qed.

Lemma loop_result_ok (os : schedule) (n i : nat) :
  (forall k, (k < n)%nat -> raises (os (i + k)%nat) = false) ->
  loop_result os i n = Ok tt.
Proof.
  revert i. induction n as [|n IH]; intros i H; simpl; [reflexivity|].
  assert (H0 := H 0%nat ltac:(lia)). rewrite Nat.add_0_r in H0.
  destruct (os i); [|discriminate].
  apply IH. intros k Hk.
  replace (S i + k)%nat with (i + S k)%nat by lia. apply H. lia.
Qed.

Lemma first_raise (os : schedule) (ex : exc) (n k i : nat) :
  (k < n)%nat ->
  (forall j, (j < k)%nat -> raises (os (i + j)%nat) = false) ->
  os (i + k)%nat = Raises ex ->
  attempts os i n = S k /\ loop_result os i n = Exc ex.
Proof.
  revert k i. induction n as [|n IH]; intros k i Hk Hbefore Hraise; [lia|].
  simpl. destruct k as [|k].
  - rewrite Nat.add_0_r in Hraise. now rewrite Hraise.
  - assert (H0 := Hbefore 0%nat ltac:(lia)). rewrite Nat.add_0_r in H0.
    rewrite H0. destruct (os i) eqn:Hi; [|discriminate].
    destruct (IH k (S i)) as [Ha Hl].
    + lia.
    + intros j Hj. replace (S i + j)%nat with (i + S j)%nat by lia.
      apply Hbefore. lia.
    + now replace (S i + k)%nat with (i + S k)%nat by lia.
    + now rewrite Ha, Hl.
Qed.

Lemma attempts_reach (os : schedule) (n k i : nat) :
  (k < n)%nat ->
  (forall j, (j < k)%nat -> raises (os (i + j)%nat) = false) ->
  (k < attempts os i n)%nat.
Proof.
  revert k i. induction n as [|n IH]; intros k i Hk Hbefore; [lia|].
  simpl. destruct k as [|k].
  - destruct (raises (os i)); lia.
  - assert (H0 := Hbefore 0%nat ltac:(lia)). rewrite Nat.add_0_r in H0.
    rewrite H0. apply -> Nat.succ_lt_mono. apply IH; [lia|].
    intros j Hj. replace (S i + j)%nat with (i + S j)%nat by lia.
    apply Hbefore. lia.
Qed.

(** *** What the command leaves in the trace *)

Lemma exec_run (e : extension) (view : View) (os : schedule) :
  sel view <> [] ->
  exec (run e view) os
  = (loop_result os 0 (List.length (sel view)),
     firstn (attempts os 0 (List.length (sel view)))
       (map (spawn e view) (sel view))).
Proof.
  intros Hs. unfold exec. now rewrite run_calls.
Qed.

(** A region that no raising call precedes gets its call, at its own
    rank. *)
Lemma reached_region (e : extension) (view : View) (os : schedule)
      (i : nat) (r : Region) :
  nth_error (sel view) i = Some r ->
  (forall k, (k < i)%nat -> raises (os k) = false) ->
  nth_error (snd (exec (run e view) os)) i = Some (spawn e view r).
Proof.
  intros Hr Hbefore.
  assert (Hi : (i < List.length (sel view))%nat)
    by (apply nth_error_Some; congruence).
  rewrite exec_run by (intros Hnil; rewrite Hnil in Hr; now destruct i).
  simpl snd. rewrite nth_error_firstn.
  assert (Hlt : (i < attempts os 0 (List.length (sel view)))%nat)
    by (apply attempts_reach; auto).
  apply Nat.ltb_lt in Hlt. rewrite Hlt.
  now apply map_nth_error.
Qed.

Lemma launch_target_parse (view : View) (r : Region) :
  Target.parse (launch_target view r)
  = Some (str (py_file_name view), offset view r).
Proof.
  unfold launch_target. apply parse_target.
Qed.

Lemma launch_target_offset (view : View) (r : Region) :
  Target.embedded_offset (launch_target view r) = Some (offset view r).
Proof.
  unfold Target.embedded_offset. now rewrite launch_target_parse.
Qed.

End Loop.

(** ** The offset that is sent *)

Section Offsets.
Import Py subprocess Exec sublime Plugin.

(** C1.  In a buffer with Windows line endings, the call made for a
    region of the selection whose anchor is the point [b], on row
    [row], carries a launch target whose offset is [b + row].  The
    region is any one the loop gets to, that is, one that no raising
    call precedes. *)
Theorem windows_offset_is_anchor_plus_row
        (e : extension) (view : View) (os : schedule)
        (i : nat) (r : Region) (b row : Z) :
  line_endings view = "Windows" ->
  nth_error (sel view) i = Some r ->
  a r = b ->
  fst (rowcol view b) = row ->
  (forall k, (k < i)%nat -> raises (os k) = false) ->
  exists target,
    nth_error (snd (exec (run e view) os)) i
    = Some {| args := [tool e; target]; shell := true |}
    /\ Target.embedded_offset target = Some (b + row).
Proof.
  intros Hwin Hr Hb Hrow Hbefore.
  exists (launch_target view r). split.
  - now apply reached_region.
  - rewrite launch_target_offset. unfold offset.
    rewrite Hwin, Hb, Hrow. reflexivity.
Qed.

Lemma windows_offset_is_anchor_plus_row_witness :
  exists target,
    nth_error (snd (exec (run QuickPick Scenarios.two_regions)
                      Scenarios.tool_missing)) 1
    = Some {| args := ["quickpick"; target]; shell := true |}
    /\ Target.embedded_offset target = Some (30 + 2).
Proof.
  apply (windows_offset_is_anchor_plus_row QuickPick Scenarios.two_regions
           Scenarios.tool_missing 1 (mk_Region 30 27) 30 2).
  - reflexivity.
  - reflexivity.
  - reflexivity.
  - reflexivity.
  - intros k Hk. reflexivity.
Defined.

(** C2.  In a buffer whose line endings are not the Windows ones, the
    call made for a region whose anchor is the point [b] carries a
    launch target whose offset is [b], whatever the row and the column
    of [b]. *)
Theorem other_offset_is_anchor
        (e : extension) (view : View) (os : schedule)
        (i : nat) (r : Region) (b : Z) :
  line_endings view <> "Windows" ->
  nth_error (sel view) i = Some r ->
  a r = b ->
  (forall k, (k < i)%nat -> raises (os k) = false) ->
  exists target,
    nth_error (snd (exec (run e view) os)) i
    = Some {| args := [tool e; target]; shell := true |}
    /\ Target.embedded_offset target = Some b.
Proof.
  intros Hnot Hr Hb Hbefore.
  exists (launch_target view r). split.
  - now apply reached_region.
  - rewrite launch_target_offset. unfold offset.
    apply String.eqb_neq in Hnot. rewrite Hnot. now rewrite Hb.
Qed.

Lemma other_offset_is_anchor_witness :
  exists target,
    nth_error (snd (exec (run CPick Scenarios.unix_caret)
                      Scenarios.all_run)) 0
    = Some {| args := ["cpick"; target]; shell := true |}
    /\ Target.embedded_offset target = Some 42.
Proof.
  apply (other_offset_is_anchor CPick Scenarios.unix_caret
           Scenarios.all_run 0 (mk_Region 42 42) 42).
  - discriminate.
  - reflexivity.
  - reflexivity.
  - intros k Hk. reflexivity.
Defined.

End Offsets.

(** ** One call per region *)

Section Calls.
Import Py subprocess Exec sublime Plugin.

(** C3, as the claim has it, fails.  A selection of two regions in an
    environment where the first call raises: the selection is not
    empty and has two regions, and the command makes one call. *)
Lemma raising_call_leaves_fewer_calls_than_regions :
  sel Host.untitled <> []
  /\ List.length (sel Host.untitled) = 2%nat
  /\ List.length (snd (exec (run CPick Host.untitled)
                         (Scenarios.fork_fails_at 0))) = 1%nat.
Proof.
  repeat split; try reflexivity. discriminate.
Qed.

(** C3, amended.  On a selection of [n] regions, [n >= 1], when no
    call before the last one raises, the command makes exactly [n]
    calls to [Popen], the [k]-th one for the [k]-th region of the
    selection. *)
Theorem one_spawn_per_region
        (e : extension) (view : View) (os : schedule) :
  sel view <> [] ->
  (forall k, (S k < List.length (sel view))%nat -> raises (os k) = false) ->
  snd (exec (run e view) os) = map (spawn e view) (sel view)
  /\ List.length (snd (exec (run e view) os)) = List.length (sel view).
Proof.
  intros Hs Hok.
  rewrite exec_run by assumption. simpl snd.
  rewrite attempts_all by (intros k Hk; now apply Hok).
  assert (Hall : firstn (List.length (sel view)) (map (spawn e view) (sel view))
                 = map (spawn e view) (sel view)).
  { rewrite <- (length_map (spawn e view)). apply firstn_all. }
  rewrite Hall. split; [reflexivity | apply length_map].
Qed.

Lemma one_spawn_per_region_witness :
  snd (exec (run CPick Scenarios.two_regions) Scenarios.tool_missing)
  = [ {| args := ["cpick"; "C:\f.txt@10"]; shell := true |};
      {| args := ["cpick"; "C:\f.txt@32"]; shell := true |} ]
  /\ List.length (snd (exec (run CPick Scenarios.two_regions)
                         Scenarios.tool_missing)) = 2%nat.
Proof.
  apply (one_spawn_per_region CPick Scenarios.two_regions
           Scenarios.tool_missing).
  - discriminate.
  - intros k Hk. reflexivity.
Defined.

(** On POSIX the shell is given the tool as its command string and the
    launch target as [$0]; the tool is started without argument. *)
Lemma posix_argv_of_spawn (e : extension) (view : View) (r : Region) :
  posix_execve_argv (spawn e view r)
  = ["/bin/sh"; "-c"; tool e; launch_target view r]
  /\ sh_command_argv (posix_execve_argv (spawn e view r)) = Some [tool e].
Proof.
  split; [reflexivity|]. now destruct e.
Qed.

(** C4.  What the call does on a POSIX host, on the buffer
    [/tmp/a.txt] with a caret at point 42: the only call is
    [Popen(["cpick", "/tmp/a.txt@42"], shell=True)], which executes
    [/bin/sh -c cpick /tmp/a.txt@42]; the shell runs the command string
    [cpick], and [cpick] is started with no argument instead of with
    the launch target as its only one. *)
Theorem posix_tool_started_without_argument :
  snd (exec (run CPick Scenarios.unix_caret) Scenarios.all_run)
  = [ {| args := ["cpick"; "/tmp/a.txt@42"]; shell := true |} ]
  /\ map posix_execve_argv
       (snd (exec (run CPick Scenarios.unix_caret) Scenarios.all_run))
     = [ ["/bin/sh"; "-c"; "cpick"; "/tmp/a.txt@42"] ]
  /\ map (fun c => sh_command_argv (posix_execve_argv c))
       (snd (exec (run CPick Scenarios.unix_caret) Scenarios.all_run))
     = [ Some ["cpick"] ].
Proof.
  repeat split; reflexivity.
Qed.

(** C5.  For a buffer saved under [path], the launch target built for
    a region is [path], one ['@'], and the decimal literal of the
    offset, with nothing before, between or after: its length is the
    sum of the three, the literal holds only digits and a possible
    minus sign (so no blank and no further ['@']), and splitting the
    target at its last ['@'] gives back [path] and the offset. *)
Theorem launch_target_shape
        (e : extension) (view : View) (os : schedule)
        (i : nat) (r : Region) (path : string) :
  file_name view = Some path ->
  nth_error (sel view) i = Some r ->
  (forall k, (k < i)%nat -> raises (os k) = false) ->
  let digits := str_int (offset view r) in
  let target := (path ++ String Target.at_sign digits)%string in
  nth_error (snd (exec (run e view) os)) i
  = Some {| args := [tool e; target]; shell := true |}
  /\ String.length target
     = (String.length path + 1 + String.length digits)%nat
  /\ Chars.string_forall Chars.is_offset_char digits = true
  /\ Chars.string_forall (fun c => negb (Chars.is_space c)) digits = true
  /\ Target.parse target = Some (path, offset view r).
Proof.
  intros Hpath Hr Hbefore digits target.
  assert (Hspawn : spawn e view r
                   = {| args := [tool e; target]; shell := true |}).
  { unfold spawn, launch_target, py_file_name. now rewrite Hpath. }
  repeat split.
  - rewrite <- Hspawn. now apply reached_region.
  - unfold target. rewrite length_append. simpl. lia.
  - apply str_int_chars.
  - apply (string_forall_impl Chars.is_offset_char); [|apply str_int_chars].
    intros c Hc. now rewrite (offset_char_not_space c Hc).
  - apply parse_target.
Qed.

Lemma launch_target_shape_witness :
  nth_error (snd (exec (run QuickPick Scenarios.windows_caret)
                    Scenarios.all_run)) 0
  = Some {| args := ["quickpick"; "C:\f.txt@104"]; shell := true |}
  /\ String.length "C:\f.txt@104" = (8 + 1 + 3)%nat
  /\ Chars.string_forall Chars.is_offset_char "104" = true
  /\ Chars.string_forall (fun c => negb (Chars.is_space c)) "104" = true
  /\ Target.parse "C:\f.txt@104" = Some ("C:\f.txt", 104).
Proof.
  apply (launch_target_shape QuickPick Scenarios.windows_caret
           Scenarios.all_run 0 (mk_Region 100 100) "C:\f.txt").
  - reflexivity.
  - reflexivity.
  - intros k Hk. reflexivity.
Defined.

(** C6, as the claim has it, fails.  The scenario itself, anchors 10
    on row 0 and 30 on row 2 under Windows line endings, in an
    environment where the first call raises: the command makes the
    call with offset 10 and no other. *)
Lemma scenario_with_raising_first_call :
  line_endings Scenarios.two_regions = "Windows"
  /\ map a (sel Scenarios.two_regions) = [10; 30]
  /\ fst (rowcol Scenarios.two_regions 10) = 0
  /\ fst (rowcol Scenarios.two_regions 30) = 2
  /\ exec (run QuickPick Scenarios.two_regions) (Scenarios.fork_fails_at 0)
     = (Exc (OSError 11),
        [ {| args := ["quickpick"; "C:\f.txt@10"]; shell := true |} ]).
Proof.
  repeat split; reflexivity.
Qed.

(** C6, amended.  Two regions anchored at the points 10, on row 0, and
    30, on row 2, in a buffer with Windows line endings: when the
    first call does not raise, the command makes exactly two calls,
    the first with offset 10 and the second with offset 32. *)
Theorem two_regions_windows_scenario
        (e : extension) (view : View) (os : schedule)
        (end1 end2 col1 col2 : Z) :
  line_endings view = "Windows" ->
  sel view = [mk_Region 10 end1; mk_Region 30 end2] ->
  rowcol view 10 = (0, col1) ->
  rowcol view 30 = (2, col2) ->
  raises (os 0%nat) = false ->
  exists target1 target2,
    snd (exec (run e view) os)
    = [ {| args := [tool e; target1]; shell := true |};
        {| args := [tool e; target2]; shell := true |} ]
    /\ Target.embedded_offset target1 = Some 10
    /\ Target.embedded_offset target2 = Some 32.
Proof.
  intros Hwin Hsel Hrow1 Hrow2 Hfirst.
  exists (launch_target view (mk_Region 10 end1)),
         (launch_target view (mk_Region 30 end2)).
  repeat split.
  - rewrite exec_run by (rewrite Hsel; discriminate).
    rewrite Hsel. simpl. rewrite Hfirst. simpl.
    (* the second call is the last: whether it raises or not, it is made *)
    destruct (raises (os 1%nat)); reflexivity.
  - rewrite launch_target_offset. unfold offset. simpl a.
    now rewrite Hwin, Hrow1.
  - rewrite launch_target_offset. unfold offset. simpl a.
    now rewrite Hwin, Hrow2.
Qed.

Lemma two_regions_windows_scenario_witness :
  exists target1 target2,
    snd (exec (run CPick Scenarios.two_regions) Scenarios.all_run)
    = [ {| args := ["cpick"; target1]; shell := true |};
        {| args := ["cpick"; target2]; shell := true |} ]
    /\ Target.embedded_offset target1 = Some 10
    /\ Target.embedded_offset target2 = Some 32.
Proof.
  apply (two_regions_windows_scenario CPick Scenarios.two_regions
           Scenarios.all_run 10 27 10 4).
  - reflexivity.
  - reflexivity.
  - reflexivity.
  - reflexivity.
  - reflexivity.
Defined.

End Calls.

(** ** Only the anchor counts *)

Section Anchors.
Import Py subprocess Exec sublime Plugin.

Lemma spawn_same_anchor (e : extension) (view : View) (s : list Region)
      (r r' : Region) :
  a r' = a r -> spawn e (with_sel view s) r' = spawn e view r.
Proof.
  intros Ha. unfold spawn, launch_target, offset, py_file_name; simpl.
  now rewrite Ha.
Qed.

Lemma spawns_same_anchors (e : extension) (view : View) (s : list Region) :
  forall l l' : list Region,
    map a l' = map a l ->
    map (spawn e (with_sel view s)) l' = map (spawn e view) l.
Proof.
  induction l as [|r l IH]; intros [|r' l'] H; simpl in *;
    try reflexivity; try discriminate.
  injection H as Ha Hrest.
  now rewrite (spawn_same_anchor e view s r r' Ha), (IH l' Hrest).
Qed.

(** C7.  The offset sent for a region is computed from its anchor
    [a]: the call made for it carries [a], to which the row of [a] is
    added under Windows line endings.  The caret end [b] has no part in
    it: give the regions of the selection other caret ends, keeping
    their anchors, and the command makes the same calls and ends the
    same way. *)
Theorem anchor_alone_decides_the_calls
        (e : extension) (view : View) (os : schedule) (sel' : list Region) :
  map a sel' = map a (sel view) ->
  (forall i r,
      nth_error (sel view) i = Some r ->
      (forall k, (k < i)%nat -> raises (os k) = false) ->
      exists target,
        nth_error (snd (exec (run e view) os)) i
        = Some {| args := [tool e; target]; shell := true |}
        /\ Target.embedded_offset target
           = Some (if (line_endings view =? "Windows")%string
                   then a r + fst (rowcol view (a r))
                   else a r))
  /\ exec (run e (with_sel view sel')) os = exec (run e view) os.
Proof.
  intros Hanchors. split.
  - intros i r Hr Hbefore. exists (launch_target view r). split.
    + now apply reached_region.
    + apply launch_target_offset.
  - assert (Hlen : List.length sel' = List.length (sel view)).
    { rewrite <- (length_map a sel'), Hanchors. apply length_map. }
    destruct (sel view) as [|r0 rest] eqn:Hsel.
    + destruct sel'; [|discriminate].
      unfold exec. rewrite !run_empty; auto.
    + rewrite !exec_run.
      * simpl sel. rewrite Hlen, Hsel.
        rewrite (spawns_same_anchors e view sel' (r0 :: rest) sel' Hanchors).
        reflexivity.
      * rewrite Hsel. discriminate.
      * simpl. destruct sel'; discriminate.
Qed.

Lemma anchor_alone_decides_the_calls_witness :
  (exists target,
     nth_error (snd (exec (run CPick Scenarios.two_regions)
                       Scenarios.all_run)) 1
     = Some {| args := ["cpick"; target]; shell := true |}
     /\ Target.embedded_offset target = Some (30 + 2))
  /\ exec (run CPick (with_sel Scenarios.two_regions
                        Scenarios.two_regions_moved)) Scenarios.all_run
     = exec (run CPick Scenarios.two_regions) Scenarios.all_run.
Proof.
  destruct (anchor_alone_decides_the_calls CPick Scenarios.two_regions
              Scenarios.all_run Scenarios.two_regions_moved)
    as [Hoffset Hsame].
  - reflexivity.
  - split; [|exact Hsame].
    apply (Hoffset 1%nat (mk_Region 30 27)).
    + reflexivity.
    + intros k Hk. reflexivity.
Defined.

End Anchors.

(** ** The two plugins side by side *)

Section Extensions.
Import Py subprocess Exec sublime Plugin.

Lemma retool_spawn (e e' : extension) (view : View) (r : Region) :
  retool (tool e') (spawn e view r) = spawn e' view r.
Proof. reflexivity. Qed.

Lemma targets_spawn (e : extension) (view : View) (l : list Region) (k : nat) :
  targets (firstn k (map (spawn e view) l))
  = firstn k (map (fun r => [launch_target view r]) l).
Proof.
  unfold targets. rewrite <- firstn_map, map_map. reflexivity.
Qed.

(** C8.  On the same view and in the same environment the two
    commands end the same way and make the same number of calls, in
    the same order and with the same launch targets; the calls differ
    in the name of the tool only, ["cpick"] for the one and
    ["quickpick"] for the other. *)
Theorem extensions_agree_up_to_tool (view : View) (os : schedule) :
  let cpick := exec (CPickSublimeText.run view) os in
  let quickpick := exec (QuickPickSublimeText.run view) os in
  fst quickpick = fst cpick
  /\ List.length (snd quickpick) = List.length (snd cpick)
  /\ targets (snd quickpick) = targets (snd cpick)
  /\ snd quickpick = map (retool "quickpick") (snd cpick)
  /\ snd cpick = map (retool "cpick") (snd quickpick)
  /\ Forall (fun c => hd_error (args c) = Some "cpick") (snd cpick)
  /\ Forall (fun c => hd_error (args c) = Some "quickpick") (snd quickpick).
Proof.
  cbv zeta.
  change (CPickSublimeText.run view) with (run CPick view).
  change (QuickPickSublimeText.run view) with (run QuickPick view).
  destruct (sel view) as [|r0 rest] eqn:Hsel.
  - unfold exec. rewrite !run_empty by assumption. simpl.
    repeat split; constructor.
  - assert (Hne : sel view <> []) by (rewrite Hsel; discriminate).
    rewrite !exec_run by assumption. simpl fst; simpl snd.
    set (k := attempts os 0 (List.length (sel view))).
    split; [reflexivity|].
    split; [now rewrite !length_firstn, !length_map|].
    split; [now rewrite !targets_spawn|].
    split; [rewrite <- firstn_map, map_map; reflexivity|].
    split; [rewrite <- firstn_map, map_map; reflexivity|].
    split.
    + apply Forall_forall. intros c Hc. rewrite firstn_map in Hc.
      apply in_map_iff in Hc. destruct Hc as [r [<- _]]. reflexivity.
    + apply Forall_forall. intros c Hc. rewrite firstn_map in Hc.
      apply in_map_iff in Hc. destruct Hc as [r [<- _]]. reflexivity.
Qed.

End Extensions.

(** ** Failures *)

Section Failures.
Import Py subprocess Exec sublime Plugin.

(** C9, as the claim has it, fails.  Two regions, and an environment in
    which the first call cannot create its process: [Popen] raises
    [OSError], nothing in [run] catches it, the command ends with it
    and the second region gets no call. *)
Lemma raising_call_blocks_later_regions :
  exec (run CPick Scenarios.two_regions) (Scenarios.fork_fails_at 0)
  = (Exc (OSError 11),
     [ {| args := ["cpick"; "C:\f.txt@10"]; shell := true |} ])
  /\ List.length (sel Scenarios.two_regions) = 2%nat
  /\ nth_error
       (snd (exec (run CPick Scenarios.two_regions)
               (Scenarios.fork_fails_at 0))) 1
     = None.
Proof.
  repeat split; reflexivity.
Qed.

(** C9, amended.  A tool that the shell cannot start is not seen by
    the command and blocks nothing: when every call returns, whatever
    became of the tool, each region gets its call and the command ends
    normally.  An exception raised by [Popen] itself is not caught: the
    command ends with that exception, after the calls for the regions
    up to the one whose call raised, and the regions after it get no
    call. *)
Theorem popen_exception_ends_the_command
        (e : extension) (view : View) (os : schedule) :
  sel view <> [] ->
  ((forall k, (k < List.length (sel view))%nat ->
              exists c, os k = Returns c) ->
   exec (run e view) os = (Ok tt, map (spawn e view) (sel view)))
  /\ (forall k ex,
        (k < List.length (sel view))%nat ->
        (forall j, (j < k)%nat -> exists c, os j = Returns c) ->
        os k = Raises ex ->
        exec (run e view) os
        = (Exc ex, firstn (S k) (map (spawn e view) (sel view)))
        /\ forall j, (k < j)%nat ->
             nth_error (snd (exec (run e view) os)) j = None).
Proof.
  intros Hs. split.
  - intros Hret.
    assert (Hok : forall k, (k < List.length (sel view))%nat ->
                            raises (os (0 + k)%nat) = false).
    { intros k Hk. destruct (Hret k Hk) as [c Hc]. simpl. now rewrite Hc. }
    rewrite exec_run by assumption.
    rewrite loop_result_ok by assumption.
    rewrite attempts_all by (intros k Hk; apply Hok; lia).
    rewrite <- (length_map (spawn e view)). now rewrite firstn_all.
  - intros k ex Hk Hret Hraise.
    assert (Hbefore : forall j, (j < k)%nat -> raises (os (0 + j)%nat) = false).
    { intros j Hj. destruct (Hret j Hj) as [c Hc]. simpl. now rewrite Hc. }
    destruct (first_raise os ex (List.length (sel view)) k 0 Hk Hbefore Hraise)
      as [Hatt Hres].
    rewrite exec_run by assumption. rewrite Hatt, Hres.
    split; [reflexivity|].
    intros j Hj. unfold snd. apply nth_error_None.
    rewrite length_firstn. lia.
Qed.

Lemma popen_exception_ends_the_command_witness :
  exec (run QuickPick Scenarios.two_regions) Scenarios.tool_missing
  = (Ok tt,
     [ {| args := ["quickpick"; "C:\f.txt@10"]; shell := true |};
       {| args := ["quickpick"; "C:\f.txt@32"]; shell := true |} ])
  /\ exec (run QuickPick Scenarios.two_regions) (Scenarios.fork_fails_at 0)
     = (Exc (OSError 11),
        [ {| args := ["quickpick"; "C:\f.txt@10"]; shell := true |} ]).
Proof.
  split.
  - destruct (popen_exception_ends_the_command QuickPick Scenarios.two_regions
                Scenarios.tool_missing) as [Hreturns _].
    + discriminate.
    + apply Hreturns. intros k Hk. exists (ShellStatus 127). reflexivity.
  - destruct (popen_exception_ends_the_command QuickPick Scenarios.two_regions
                (Scenarios.fork_fails_at 0)) as [_ Hraises].
    + discriminate.
    + apply (Hraises 0%nat (OSError 11)).
      * simpl. lia.
      * intros j Hj. lia.
      * reflexivity.
Defined.

(** C10.  On a selection without region, reading [sel[len(sel) - 1]]
    raises [IndexError] before the loop is entered: the command ends
    with that exception and no call to [Popen] has been made. *)
Theorem empty_selection_raises_index_error
        (e : extension) (view : View) (os : schedule) :
  sel view = [] ->
  exec (run e view) os = (Exc IndexError, []).
Proof.
  intros Hs. unfold exec. now apply run_empty.
Qed.

Lemma empty_selection_raises_index_error_witness :
  exec (run CPick Scenarios.no_region) Scenarios.all_run
  = (Exc IndexError, []).
Proof.
  apply (empty_selection_raises_index_error CPick Scenarios.no_region
           Scenarios.all_run).
  reflexivity.
Defined.

End Failures.

(** ** Beyond the selection that goes through *)

Section Executions.
Import Py subprocess Exec sublime Plugin.

Lemma loop_result_ok_inv (os : schedule) (n i : nat) :
  loop_result os i n = Ok tt ->
  forall k, (k < n)%nat -> raises (os (i + k)%nat) = false.
Proof.
  revert i. induction n as [|n IH]; intros i H k Hk; [lia|].
  simpl in H. destruct (os i) as [c|ex] eqn:Hi; [|discriminate].
  destruct k as [|k].
  - now rewrite Nat.add_0_r, Hi.
  - replace (i + S k)%nat with (S i + k)%nat by lia.
    apply IH; [assumption | lia].
Qed.

Lemma loop_result_exc_inv (os : schedule) (ex : exc) (n i : nat) :
  loop_result os i n = Exc ex ->
  exists k, (k < n)%nat
            /\ os (i + k)%nat = Raises ex
            /\ (forall j, (j < k)%nat -> raises (os (i + j)%nat) = false)
            /\ attempts os i n = S k.
Proof.
  revert i. induction n as [|n IH]; intros i H; [discriminate|].
  simpl in H. simpl attempts.
  destruct (os i) as [c|ex'] eqn:Hi.
  - destruct (IH (S i) H) as [k [Hk [Hraise [Hbefore Hatt]]]].
    exists (S k). repeat split.
    + lia.
    + now replace (i + S k)%nat with (S i + k)%nat by lia.
    + intros [|j] Hj.
      * now rewrite Nat.add_0_r, Hi.
      * replace (i + S j)%nat with (S i + j)%nat by lia. apply Hbefore. lia.
    + simpl. now rewrite Hatt.
  - injection H as ->. exists 0%nat. repeat split.
    + lia.
    + now rewrite Nat.add_0_r.
    + intros j Hj. lia.
Qed.

(** X1.  Whatever the environment does, the calls of the command are
    the calls for the first [k] regions of the selection, in order, for
    some [k] that is at most the number of regions: no region is
    skipped, none is served twice or out of turn, and no call is made
    that belongs to no region. *)
Theorem calls_serve_a_prefix_of_the_selection
        (e : extension) (view : View) (os : schedule) :
  exists k,
    (k <= List.length (sel view))%nat
    /\ snd (exec (run e view) os) = map (spawn e view) (firstn k (sel view))
    /\ List.length (snd (exec (run e view) os)) = k.
Proof.
  destruct (sel view) as [|r0 rest] eqn:Hsel.
  - exists 0%nat. unfold exec. rewrite run_empty by assumption.
    repeat split; simpl; lia.
  - assert (Hne : sel view <> []) by (rewrite Hsel; discriminate).
    exists (attempts os 0 (List.length (sel view))).
    rewrite exec_run by assumption. unfold snd.
    assert (Hle := attempts_le os (List.length (sel view)) 0).
    rewrite <- Hsel. repeat split.
    + assumption.
    + apply firstn_map.
    + rewrite length_firstn, length_map. lia.
Qed.

(** X2.  On a selection that has a region, the command ends normally
    exactly when none of the calls for its regions raises. *)
Theorem ends_normally_iff_no_call_raises
        (e : extension) (view : View) (os : schedule) :
  sel view <> [] ->
  fst (exec (run e view) os) = Ok tt
  <-> (forall k, (k < List.length (sel view))%nat -> raises (os k) = false).
Proof.
  intros Hs. rewrite exec_run by assumption. unfold fst. split.
  - intros H k Hk. apply (loop_result_ok_inv os _ 0 H k Hk).
  - intros H. apply loop_result_ok. intros k Hk. now apply H.
Qed.

Lemma ends_normally_iff_no_call_raises_witness :
  fst (exec (run CPick Host.untitled) Scenarios.tool_missing) = Ok tt
  <-> (forall k, (k < 2)%nat -> raises (Scenarios.tool_missing k) = false).
Proof.
  apply (ends_normally_iff_no_call_raises CPick Host.untitled
           Scenarios.tool_missing).
  discriminate.
Defined.

(** X3.  The command can end with an exception in two ways only: with
    [IndexError], on a selection without region and before any call; or
    with the exception of the first call that raised, which is then the
    last call made.  Building the launch target never raises. *)
Theorem exceptions_of_the_command
        (e : extension) (view : View) (os : schedule) (ex : exc) :
  fst (exec (run e view) os) = Exc ex ->
  (sel view = [] /\ ex = IndexError /\ snd (exec (run e view) os) = [])
  \/ (exists k,
        (k < List.length (sel view))%nat
        /\ os k = Raises ex
        /\ (forall j, (j < k)%nat -> raises (os j) = false)
        /\ List.length (snd (exec (run e view) os)) = S k).
Proof.
  destruct (sel view) as [|r0 rest] eqn:Hsel.
  - unfold exec. rewrite run_empty by assumption. simpl.
    intros [= <-]. left. repeat split.
  - assert (Hne : sel view <> []) by (rewrite Hsel; discriminate).
    rewrite exec_run by assumption. unfold fst, snd. rewrite <- Hsel.
    intros H. right.
    destruct (loop_result_exc_inv os ex _ 0 H) as [k [Hk [Hr [Hb Hatt]]]].
    exists k. repeat split; try assumption.
    rewrite Hatt, length_firstn, length_map. lia.
Qed.

Lemma exceptions_of_the_command_witness :
  (sel Host.untitled = [] /\ OSError 12 = IndexError
   /\ snd (exec (run QuickPick Host.untitled) Host.second_call_fails) = [])
  \/ (exists k,
        (k < List.length (sel Host.untitled))%nat
        /\ Host.second_call_fails k = Raises (OSError 12)
        /\ (forall j, (j < k)%nat -> raises (Host.second_call_fails j) = false)
        /\ List.length (snd (exec (run QuickPick Host.untitled)
                               Host.second_call_fails)) = S k).
Proof.
  apply (exceptions_of_the_command QuickPick Host.untitled
           Host.second_call_fails (OSError 12)).
  reflexivity.
Defined.

End Executions.

(** ** What the launch target depends on *)

Section Dependencies.
Import Py subprocess Exec sublime Plugin.

(** X5.  In a buffer that was never saved, [file_name()] is [None] and
    the launch target of a region is the text [None], the ['@'] and the
    offset; the call is made like any other. *)
Theorem untitled_buffer_target
        (e : extension) (view : View) (os : schedule)
        (i : nat) (r : Region) :
  file_name view = None ->
  nth_error (sel view) i = Some r ->
  (forall k, (k < i)%nat -> raises (os k) = false) ->
  nth_error (snd (exec (run e view) os)) i
  = Some {| args := [tool e; ("None@" ++ str_int (offset view r))%string];
            shell := true |}.
Proof.
  intros Hnone Hr Hbefore.
  rewrite (reached_region e view os i r Hr Hbefore).
  unfold spawn, launch_target, py_file_name. now rewrite Hnone.
Qed.

Lemma untitled_buffer_target_witness :
  nth_error (snd (exec (run CPick Host.untitled) Scenarios.all_run)) 1
  = Some {| args := ["cpick"; "None@15"]; shell := true |}.
Proof.
  apply (untitled_buffer_target CPick Host.untitled Scenarios.all_run
           1 (mk_Region 15 15)).
  - reflexivity.
  - reflexivity.
  - intros k Hk. reflexivity.
Defined.

(** X6.  The text that [format] builds determines the path and the
    offset it was built from, also when the path itself contains
    ['@']: two launch targets are equal only if their paths and their
    offsets are. *)
Theorem launch_targets_are_unambiguous (p1 p2 : string) (n1 n2 : Z) :
  format "{}@{}" [VStr p1; VInt n1] = format "{}@{}" [VStr p2; VInt n2] ->
  p1 = p2 /\ n1 = n2.
Proof.
  rewrite !format_target. simpl str. intros [= H].
  apply (f_equal Target.parse) in H.
  rewrite !parse_target in H. injection H as -> ->. split; reflexivity.
Qed.

Lemma launch_targets_are_unambiguous_witness :
  "/tmp/a@b.txt" = "/tmp/a@b.txt" /\ 64 = 64.
Proof.
  apply (launch_targets_are_unambiguous "/tmp/a@b.txt" "/tmp/a@b.txt" 64 64).
  reflexivity.
Defined.

Lemma spawn_same_rows (e : extension) (view : View) (f : Z -> Z * Z)
      (r : Region) :
  (line_endings view = "Windows" -> fst (f (a r)) = fst (rowcol view (a r))) ->
  spawn e (Host.with_rowcol view f) r = spawn e view r.
Proof.
  intros Hrow. unfold spawn, launch_target, offset, py_file_name; simpl.
  destruct (String.eqb_spec (line_endings view) "Windows") as [Hwin|Hnot].
  - now rewrite (Hrow Hwin).
  - reflexivity.
Qed.

(** X7.  Of what [rowcol] returns the command uses the row of each
    anchor, and that only in a buffer with Windows line endings: under
    any other translation of points that gives the anchors the same
    rows, the calls and the end of the command are the same; the
    columns never matter, and in a buffer with other line endings the
    rows do not either. *)
Theorem only_anchor_rows_matter
        (e : extension) (view : View) (os : schedule) (f : Z -> Z * Z) :
  (line_endings view = "Windows" ->
   forall r, In r (sel view) -> fst (f (a r)) = fst (rowcol view (a r))) ->
  exec (run e (Host.with_rowcol view f)) os = exec (run e view) os.
Proof.
  intros Hrows.
  destruct (sel view) as [|r0 rest] eqn:Hsel.
  - unfold exec. rewrite !run_empty; auto.
  - assert (Hne : sel view <> []) by (rewrite Hsel; discriminate).
    rewrite !exec_run by assumption. simpl sel.
    f_equal. f_equal. apply map_ext_in. intros r Hr.
    apply spawn_same_rows. intros Hwin. apply (Hrows Hwin).
    now rewrite <- Hsel.
Qed.

Lemma only_anchor_rows_matter_witness :
  exec (run CPick (Host.with_rowcol Scenarios.two_regions
                     (fun p => (p / 13, 0)))) Scenarios.all_run
  = exec (run CPick Scenarios.two_regions) Scenarios.all_run.
Proof.
  apply (only_anchor_rows_matter CPick Scenarios.two_regions
           Scenarios.all_run (fun p => (p / 13, 0))).
  intros _ r [<- | [<- | []]]; reflexivity.
Defined.

(** X8.  On a POSIX host no call of the command, for either tool and
    whatever the view, hands the launch target to the tool: each call
    executes [/bin/sh -c tool target], where the shell runs [tool]
    with no argument. *)
Theorem posix_calls_start_the_bare_tool
        (e : extension) (view : View) (os : schedule) :
  Forall (fun c =>
            exists target,
              posix_execve_argv c = ["/bin/sh"; "-c"; tool e; target]
              /\ sh_command_argv (posix_execve_argv c) = Some [tool e])
         (snd (exec (run e view) os)).
Proof.
  destruct (sel view) as [|r0 rest] eqn:Hsel.
  - unfold exec. rewrite run_empty by assumption. constructor.
  - assert (Hne : sel view <> []) by (rewrite Hsel; discriminate).
    rewrite exec_run by assumption. unfold snd.
    apply Forall_forall. intros c Hc. rewrite firstn_map in Hc.
    apply in_map_iff in Hc. destruct Hc as [r [<- _]].
    exists (launch_target view r). apply posix_argv_of_spawn.
Qed.

End Dependencies.
